(** * Settings panel of the snipit code manager (src/Settings.tsx)

    A shallow embedding of the [Settings] React component: its state
    (the four [useState]/[useTheme] cells), its three event handlers,
    the mount effect, [renderSection] and the sidebar.  The host services
    the component imports ([dialog.open], [invoke], [loadSettings],
    [saveSettings], [appDataDir]) are an interface; every call of a handler
    is recorded in a trace next to the toasts and console messages, so that
    "no save is performed" and "a notification is emitted" are statements
    about that trace. *)

From Stdlib Require Import String List Bool Arith Lia.
Import ListNotations.
Open Scope string_scope.
Open Scope list_scope.

Set Implicit Arguments.

(* ================================================================= *)
(** ** Data model *)

(** The state type of [useState<{ os; firstStartup; collectionPath } | null>]:
    the record is [SettingsRecord], the cell is an [option] of it. *)
Record SettingsRecord : Type := mkSettings
  { os : string;
    firstStartup : string;
    collectionPath : string }.

(** The parameter type of [handleThemeChange]: ["light" | "dark" | "system"]. *)
Inductive Theme : Type := light | dark | system.

(** The string a theme value is at run time (it is interpolated in a toast). *)
Definition theme_text (t : Theme) : string :=
  match t with
  | light => "light"
  | dark => "dark"
  | system => "system"
  end.

(** A toast: [variant] is absent (the default look) or ["destructive"]. *)
Inductive Variant : Type := vDefault | vDestructive.

Record Toast : Type := mkToast
  { title : string;
    description : string;
    variant : Variant }.

(** The two kinds of the notification channel. *)
Inductive NotifyKind : Type := NSuccess | NError.

Definition toast_kind (t : Toast) : NotifyKind :=
  match variant t with
  | vDefault => NSuccess
  | vDestructive => NError
  end.

(** What a host call can throw.  The code binds it to an untyped [error];
    the named kinds are those of the design, [Thrown] is anything else. *)
Inductive HostError : Type :=
  | StorageUnavailable
  | ValidationError
  | PathNotFound
  | PermissionDenied
  | Thrown (msg : string).

(** A promise that has settled. *)
Inductive Outcome (A : Type) : Type :=
  | Resolved (a : A)
  | Rejected (e : HostError).
Arguments Resolved {A} a.
Arguments Rejected {A} e.

(** The value [dialog.open] resolves to: [null | string | string[]]. *)
Inductive Selected : Type :=
  | SelNull
  | SelPath (p : string)
  | SelPaths (ps : list string).

(** JavaScript truthiness of such a value: [null] and the empty string are
    falsy, every array is truthy. *)
Definition js_truthy (v : Selected) : bool :=
  match v with
  | SelNull => false
  | SelPath p => negb (String.eqb p "")
  | SelPaths _ => true
  end.

(** [typeof v]. *)
Definition js_typeof (v : Selected) : string :=
  match v with
  | SelNull => "object"
  | SelPath _ => "string"
  | SelPaths _ => "object"
  end.

(** Truthiness of the settings cell: an object is truthy, [null] is not. *)
Definition settings_truthy (s : option SettingsRecord) : bool :=
  match s with
  | Some _ => true
  | None => false
  end.

(** [{ ...settings, collectionPath: selected }]. *)
Definition spread_collectionPath (s : SettingsRecord) (selected : string)
  : SettingsRecord :=
  {| os := os s;
     firstStartup := firstStartup s;
     collectionPath := selected |}.

(** One entry of [settingsOptions]; the icon is presentation only. *)
Inductive Icon : Type := Palette | Plug | Container | Library | Clipboard.

Record SettingsOption : Type := mkOption
  { name : string;
    icon : Icon }.

Definition settingsOptions : list SettingsOption :=
  [ mkOption "Themes" Palette;
    mkOption "Connections" Plug;
    mkOption "Collections" Container;
    mkOption "About" Library;
    mkOption "Test" Clipboard ].

(** The five section names, as the claim about the active section lists them. *)
Definition sectionNames : list string :=
  [ "Themes"; "Connections"; "Collections"; "About"; "Test" ].

(** The component's state cells. *)
Record Component : Type := mkComponent
  { theme : Theme;
    activeSection : string;
    settings : option SettingsRecord;
    appDirectory : string }.

Definition setTheme_cell (v : Theme) (c : Component) : Component :=
  {| theme := v;
     activeSection := activeSection c;
     settings := settings c;
     appDirectory := appDirectory c |}.

Definition setActiveSection_cell (n : string) (c : Component) : Component :=
  {| theme := theme c;
     activeSection := n;
     settings := settings c;
     appDirectory := appDirectory c |}.

Definition setSettings_cell (s : option SettingsRecord) (c : Component)
  : Component :=
  {| theme := theme c;
     activeSection := activeSection c;
     settings := s;
     appDirectory := appDirectory c |}.

Definition setAppDirectory_cell (d : string) (c : Component) : Component :=
  {| theme := theme c;
     activeSection := activeSection c;
     settings := settings c;
     appDirectory := d |}.

(** [useState("Themes")], [useState(null)], [useState("")]; the theme comes
    from the provider. *)
Definition initialComponent (t : Theme) : Component :=
  {| theme := t;
     activeSection := "Themes";
     settings := None;
     appDirectory := "" |}.

(** What a handler does to the outside, in order. *)
Inductive Effect : Type :=
  | CallDialogOpen
  | CallSaveSettings (r : SettingsRecord)
  | CallLoadSettings
  | CallInvoke (cmd : string) (path : string)
  | CallAppDataDir
  | ShowToast (t : Toast)
  | ConsoleError (msg : string) (e : HostError).

Definition saves_of (tr : list Effect) : list SettingsRecord :=
  flat_map (fun e => match e with CallSaveSettings r => [r] | _ => [] end) tr.

Definition toasts_of (tr : list Effect) : list Toast :=
  flat_map (fun e => match e with ShowToast t => [t] | _ => [] end) tr.

(** [new Date(iso).toLocaleString()]: the text it yields depends on the
    host's locale and time zone, so the pane holds the expression, with the
    string the date is built from. *)
Inductive DateText : Type :=
  | LocaleString (iso : string).

(** What [renderSection] returns, with the strings and values it shows. *)
Inductive SectionBody : Type :=
  | NoChildren
  | ThemeSelect (value : Theme) (items : list Theme)
  | ChooseFolder (inputValue : string)
  | AboutInfo (osText : string) (firstStartupText : DateText)
              (collectionDir appDir : string)
  | AboutLoading.

Record SectionView : Type := mkSection
  { sec_title : string;
    sec_description : string;
    sec_children : SectionBody }.

(** The user actions the rendered tree offers. *)
Inductive UiEvent : Type :=
  | Mount
  | ClickSidebar (i : nat)
  | PickTheme (v : Theme)
  | ClickChooseFolder
  | ClickOpenCollectionDir
  | ClickOpenAppDir.

(* ================================================================= *)
(** ** Host services and the handler monad *)

(** The imports the component calls, as functions of the host's state [W].
    [loadSettings] and [saveSettings] come from [@/db/db], [invoke],
    [dialog.open] and [appDataDir] from the Tauri API; none of them is
    part of this file, so the handlers are stated for every implementation. *)
Class Host (W : Type) : Type := mkHost
  { dialog_open : W -> Outcome Selected * W;
    saveSettings : SettingsRecord -> W -> Outcome unit * W;
    loadSettings : W -> Outcome (option SettingsRecord) * W;
    invoke : string -> string -> W -> Outcome unit * W;
    appDataDir : W -> Outcome string * W }.

(** The component, the host behind it and what has been observed so far. *)
Record Machine (W : Type) : Type := mkMachine
  { comp : Component;
    world : W;
    trace : list Effect }.

(** An [async] function body: it runs on the machine and settles. *)
Definition M (W A : Type) : Type := Machine W -> Outcome A * Machine W.

Section Monad.
Context {W : Type}.

Definition ret {A : Type} (a : A) : M W A := fun m => (Resolved a, m).

(** Sequencing with [await]: a rejection skips the rest. *)
Definition bind {A B : Type} (c : M W A) (k : A -> M W B) : M W B :=
  fun m =>
    match c m with
    | (Resolved a, m') => k a m'
    | (Rejected e, m') => (Rejected e, m')
    end.

(** [try { body } catch (error) { handler }]: what [body] did before it
    threw stays done. *)
Definition try_catch {A : Type} (body : M W A) (handler : HostError -> M W A)
  : M W A :=
  fun m =>
    match body m with
    | (Resolved a, m') => (Resolved a, m')
    | (Rejected e, m') => handler e m'
    end.

Definition observe (e : Effect) (m : Machine W) : Machine W :=
  {| comp := comp m; world := world m; trace := trace m ++ [e] |}.

(** A host call: recorded, then run on the host's state. *)
Definition host_call {A : Type} (label : Effect) (op : W -> Outcome A * W)
  : M W A :=
  fun m =>
    let r := op (world m) in
    (fst r, {| comp := comp m; world := snd r; trace := trace m ++ [label] |}).

Definition update (f : Component -> Component) : M W unit :=
  fun m =>
    (Resolved tt, {| comp := f (comp m); world := world m; trace := trace m |}).

Definition read {A : Type} (f : Component -> A) : M W A :=
  fun m => (Resolved (f (comp m)), m).

Definition toast (t : Toast) : M W unit :=
  fun m => (Resolved tt, observe (ShowToast t) m).

Definition console_error (msg : string) (e : HostError) : M W unit :=
  fun m => (Resolved tt, observe (ConsoleError msg e) m).

(** How a handler settles on a machine, and the machine it leaves. *)
Definition settled {A : Type} (h : M W A) (m : Machine W) : Outcome A :=
  fst (h m).

Definition after {A : Type} (h : M W A) (m : Machine W) : Machine W :=
  snd (h m).

(** A computation that leaves [activeSection] alone, however it settles. *)
Definition keeps_section {A : Type} (h : M W A) : Prop :=
  forall m, activeSection (comp (snd (h m))) = activeSection (comp m).
End Monad.

Declare Scope handler_scope.
Delimit Scope handler_scope with handler.
Notation "x <- c ;; k" := (bind c (fun x => k))
  (at level 61, c at next level, right associativity) : handler_scope.
Notation "c ;;; k" := (bind c (fun _ => k))
  (at level 61, right associativity) : handler_scope.

(* ================================================================= *)
(** ** The component *)

Section Settings.
Context {W : Type} {host : Host W}.
Local Open Scope handler_scope.

(** The effect of [useEffect(..., [])]: load the record, then the data
    directory.  Nothing catches a rejection here. *)
Definition onMount : M W unit :=
  loadedSettings <- host_call CallLoadSettings loadSettings ;;
  update (setSettings_cell loadedSettings) ;;;
  dir <- host_call CallAppDataDir appDataDir ;;
  update (setAppDirectory_cell dir).

Definition handleFolderOpen (path : string) : M W unit :=
  try_catch
    (host_call (CallInvoke "open_folder" path) (invoke "open_folder" path) ;;;
     toast {| title := "Success";
              description := "Folder opened successfully.";
              variant := vDefault |})
    (fun error =>
       console_error "Failed to open folder:" error ;;;
       toast {| title := "Error";
                description := "Failed to open folder.";
                variant := vDestructive |}).

(** The test of line 56:
    [selected && typeof selected === "string" && settings]. *)
Definition path_guard (selected : Selected) (s : option SettingsRecord)
  : bool :=
  js_truthy selected
  && String.eqb (js_typeof selected) "string"
  && settings_truthy s.

(** [settings] is the cell's value in the render the handler closes over;
    handlers run one at a time, so that is the value when it starts. *)
Definition handleChangeCollectionPath : M W unit :=
  current <- read settings ;;
  try_catch
    (selected <- host_call CallDialogOpen dialog_open ;;
     if path_guard selected current then
       match selected, current with
       | SelPath chosen, Some s =>
           let updatedSettings := spread_collectionPath s chosen in
           host_call (CallSaveSettings updatedSettings)
                     (saveSettings updatedSettings) ;;;
           update (setSettings_cell (Some updatedSettings)) ;;;
           toast {| title := "Collection Updated";
                    description :=
                      "Collection path has been changed successfully.";
                    variant := vDefault |}
       | _, _ => ret tt
       end
     else ret tt)
    (fun error =>
       console_error "Failed to change collection path:" error ;;;
       toast {| title := "Error";
                description := "Failed to update collection path.";
                variant := vDestructive |}).

(** [setTheme] is the provider's update function for the process-wide
    theme value; here it writes the [theme] cell. *)
Definition handleThemeChange (value : Theme) : M W unit :=
  update (setTheme_cell value) ;;;
  toast {| title := "Theme Updated";
           description :=
             ("Theme has been changed to " ++ theme_text value ++ ".")%string;
           variant := vDefault |}.

(** The [SelectItem]s of the theme picker. *)
Definition themeItems : list Theme := [light; dark; system].

(** [renderSection]: [None] is the [default: return null] branch. *)
Definition renderSection (c : Component) : option SectionView :=
  if String.eqb (activeSection c) "Themes" then
    Some (mkSection "Themes"
            "Customize your theme and appearance settings."
            (ThemeSelect (theme c) themeItems))
  else if String.eqb (activeSection c) "Connections" then
    Some (mkSection "Connections"
            "Manage API integrations, database connections, and more."
            NoChildren)
  else if String.eqb (activeSection c) "Collections" then
    Some (mkSection "Collections"
            "Select a folder to store your collections."
            (ChooseFolder
               match settings c with
               | Some s => collectionPath s
               | None => ""
               end))
  else if String.eqb (activeSection c) "About" then
    Some (mkSection "About"
            "Information about the app and your device."
            match settings c with
            | Some s =>
                AboutInfo (os s) (LocaleString (firstStartup s))
                          (collectionPath s)
                          (appDirectory c)
            | None => AboutLoading
            end)
  else if String.eqb (activeSection c) "Test" then
    Some (mkSection "Test" "Basically a boilerplate for me." NoChildren)
  else None.

(** What is on screen in the detail pane. *)
Definition shown (c : Component) : option SectionBody :=
  option_map sec_children (renderSection c).

(** One user action on the rendered tree.  A sidebar button exists for each
    entry of [settingsOptions]; the widgets of the detail pane exist only
    in the section that renders them. *)
Definition dispatch (ev : UiEvent) : M W unit :=
  match ev with
  | Mount => onMount
  | ClickSidebar i =>
      match nth_error settingsOptions i with
      | Some opt => update (setActiveSection_cell (name opt))
      | None => ret tt
      end
  | PickTheme v =>
      body <- read shown ;;
      match body with
      | Some (ThemeSelect _ _) => handleThemeChange v
      | _ => ret tt
      end
  | ClickChooseFolder =>
      body <- read shown ;;
      match body with
      | Some (ChooseFolder _) => handleChangeCollectionPath
      | _ => ret tt
      end
  | ClickOpenCollectionDir =>
      body <- read shown ;;
      match body with
      | Some (AboutInfo _ _ dir _) => handleFolderOpen dir
      | _ => ret tt
      end
  | ClickOpenAppDir =>
      body <- read shown ;;
      match body with
      | Some (AboutInfo _ _ _ dir) => handleFolderOpen dir
      | _ => ret tt
      end
  end.

(** The event loop: a handler that settles, either way, leaves the machine
    for the next event. *)
Fixpoint run_events (evs : list UiEvent) (m : Machine W) : Machine W :=
  match evs with
  | [] => m
  | ev :: rest => run_events rest (snd (dispatch ev m))
  end.

Definition initialMachine (t : Theme) (w : W) : Machine W :=
  {| comp := initialComponent t; world := w; trace := [] |}.
End Settings.

(** The toasts of the handlers, by name. *)
Definition updatedToast : Toast :=
  {| title := "Collection Updated";
     description := "Collection path has been changed successfully.";
     variant := vDefault |}.

Definition errorToastPath : Toast :=
  {| title := "Error";
     description := "Failed to update collection path.";
     variant := vDestructive |}.

Definition openedToast : Toast :=
  {| title := "Success";
     description := "Folder opened successfully.";
     variant := vDefault |}.

Definition errorToastOpen : Toast :=
  {| title := "Error";
     description := "Failed to open folder.";
     variant := vDestructive |}.

Definition themeToast (value : Theme) : Toast :=
  {| title := "Theme Updated";
     description :=
       ("Theme has been changed to " ++ theme_text value ++ ".")%string;
     variant := vDefault |}.

Ltac step_handler :=
  unfold handleChangeCollectionPath, handleFolderOpen, handleThemeChange,
    onMount, bind, try_catch, host_call, read, update, toast, console_error,
    observe, ret;
  cbn [fst snd comp world trace].

(* ================================================================= *)
(** ** The settings store and a host to run the component on *)

(** What the host environment supplies when a record is first created. *)
Record HostEnv : Type := mkEnv
  { env_os : string;
    env_now : string;
    env_defaultCollectionPath : string;
    env_appDataDir : string }.

Module SettingsStore.

(** The persistence medium: whether it can be opened, and the record it
    holds, if any. *)
Record Store : Type := mkStore
  { available : bool;
    persisted : option SettingsRecord }.

(** Modelled from the spec: [loadSettings] of [@/db/db] is not among the
    sources.  [load] returns the persisted record; if none exists it
    creates one from the host environment with the platform default
    collection path; it fails with [StorageUnavailable] if the medium
    cannot be opened. *)
Definition load (env : HostEnv) (st : Store) : Outcome SettingsRecord * Store :=
  if available st then
    match persisted st with
    | Some r => (Resolved r, st)
    | None =>
        let created :=
          {| os := env_os env;
             firstStartup := env_now env;
             collectionPath := env_defaultCollectionPath env |} in
        (Resolved created,
         {| available := available st; persisted := Some created |})
    end
  else (Rejected StorageUnavailable, st).

(** Modelled from the spec: [saveSettings] of [@/db/db] is not among the
    sources.  [save] overwrites the persisted record; it fails with
    [StorageUnavailable], or with [ValidationError] on an empty
    [collectionPath], and a failed save writes nothing. *)
Definition save (r : SettingsRecord) (st : Store) : Outcome unit * Store :=
  if available st then
    if String.eqb (collectionPath r) "" then (Rejected ValidationError, st)
    else (Resolved tt, {| available := available st; persisted := Some r |})
  else (Rejected StorageUnavailable, st).

End SettingsStore.

Module FakeHost.
Import SettingsStore.

(** A host with a store, a scripted directory picker and a file system
    that knows which folders exist and which may be opened. *)
Record World : Type := mkWorld
  { store : Store;
    env : HostEnv;
    picker : list (Outcome Selected);
    folders : list string;
    locked : list string }.

Definition with_store (st : Store) (w : World) : World :=
  {| store := st; env := env w; picker := picker w;
     folders := folders w; locked := locked w |}.

Definition mem (p : string) (l : list string) : bool :=
  existsb (String.eqb p) l.

(** Modelled from the spec: [chooseDirectory() -> path | none].  The next
    scripted answer is what the user does; with no answer left the user
    cancels. *)
Definition chooseDirectory (w : World) : Outcome Selected * World :=
  match picker w with
  | [] => (Resolved SelNull, w)
  | answer :: rest =>
      (answer,
       {| store := store w; env := env w; picker := rest;
          folders := folders w; locked := locked w |})
  end.

(** Modelled from the spec: [openInFileManager(path)] fails with
    [PathNotFound] or [PermissionDenied]; it opens a window and writes
    nothing. *)
Definition openInFileManager (path : string) (w : World)
  : Outcome unit * World :=
  if mem path (folders w) then
    if mem path (locked w) then (Rejected PermissionDenied, w)
    else (Resolved tt, w)
  else (Rejected PathNotFound, w).

Definition fake_load (w : World) : Outcome (option SettingsRecord) * World :=
  match load (env w) (store w) with
  | (Resolved r, st) => (Resolved (Some r), with_store st w)
  | (Rejected e, st) => (Rejected e, with_store st w)
  end.

Definition fake_save (r : SettingsRecord) (w : World)
  : Outcome unit * World :=
  let res := save r (store w) in (fst res, with_store (snd res) w).

(** Modelled from the spec: [applicationDataDirectory() -> path]. *)
Definition applicationDataDirectory (w : World) : Outcome string * World :=
  (Resolved (env_appDataDir (env w)), w).

#[export] Instance fake : Host World :=
  {| dialog_open := chooseDirectory;
     saveSettings := fake_save;
     loadSettings := fake_load;
     invoke := fun _ path => openInFileManager path;
     appDataDir := applicationDataDirectory |}.

(** The profile of the design's example. *)
Definition linuxRecord : SettingsRecord :=
  {| os := "Linux";
     firstStartup := "2024-01-01T00:00:00Z";
     collectionPath := "/home/u/.app/collections" |}.

Definition linuxEnv : HostEnv :=
  {| env_os := "Linux";
     env_now := "2024-01-01T00:00:00Z";
     env_defaultCollectionPath := "/home/u/.app/collections";
     env_appDataDir := "/home/u/.app" |}.

Definition linuxWorld (st : Store) (answers : list (Outcome Selected))
  : World :=
  {| store := st;
     env := linuxEnv;
     picker := answers;
     folders := ["/home/u/.app"; "/home/u/Documents/col2"; "/root"];
     locked := ["/root"] |}.

Definition loadedComponent : Component :=
  {| theme := system;
     activeSection := "Collections";
     settings := Some linuxRecord;
     appDirectory := "/home/u/.app" |}.

Definition loadedMachine (st : Store) (answers : list (Outcome Selected))
  : Machine World :=
  {| comp := loadedComponent; world := linuxWorld st answers; trace := [] |}.

Definition okStore : Store :=
  {| available := true; persisted := Some linuxRecord |}.

Definition downStore : Store :=
  {| available := false; persisted := Some linuxRecord |}.

Definition freshStore : Store :=
  {| available := true; persisted := None |}.

(** Machines and values of the worked examples. *)
Definition col2 : string := "/home/u/Documents/col2".

Definition picked : Machine World := loadedMachine okStore [Resolved (SelPath col2)].

Definition unsaved : Machine World :=
  loadedMachine downStore [Resolved (SelPath col2)].

Definition cancelled : Machine World := loadedMachine okStore [Resolved SelNull].

Definition idle : Machine World := loadedMachine okStore [].

Definition several : Machine World :=
  loadedMachine okStore [Resolved (SelPaths ["/tmp/a"; "/tmp/b"])].

Definition unloaded : Machine World :=
  {| comp := initialComponent system;
     world := linuxWorld okStore [Resolved (SelPath col2)];
     trace := [] |}.

Definition laterEnv : HostEnv :=
  {| env_os := "Linux";
     env_now := "2025-06-30T12:00:00Z";
     env_defaultCollectionPath := "/home/u/.app/collections";
     env_appDataDir := "/home/u/.app" |}.
End FakeHost.

(* ================================================================= *)
(** ** Further scenarios on the fake host *)

Module Scenarios.
Import SettingsStore FakeHost.

(** The first launch: nothing persisted, nothing loaded yet. *)
Definition firstLaunch : Machine World :=
  initialMachine dark (linuxWorld freshStore []).

(** A launch while the store cannot be opened. *)
Definition launchStoreDown : Machine World :=
  initialMachine dark (linuxWorld downStore []).

(** A host like [fake] whose data-directory lookup fails. *)
Definition noDataDir : Host World :=
  {| dialog_open := chooseDirectory;
     saveSettings := fake_save;
     loadSettings := fake_load;
     invoke := fun _ path => openInFileManager path;
     appDataDir := fun w => (Rejected (Thrown "no data directory"), w) |}.

(** The picker itself fails. *)
Definition pickerBroken : Machine World :=
  loadedMachine okStore [Rejected (Thrown "dialog unavailable")].

(** The picker fails before the settings have loaded. *)
Definition unloadedPickerBroken : Machine World :=
  {| comp := initialComponent system;
     world := linuxWorld okStore [Rejected (Thrown "dialog unavailable")];
     trace := [] |}.

(** The picker hands back the empty string. *)
Definition pickedNothing : Machine World :=
  loadedMachine okStore [Resolved (SelPath "")].

(** The host after the example's save went through. *)
Definition savedWorld : World :=
  linuxWorld {| available := true;
                persisted := Some (spread_collectionPath linuxRecord col2) |}
             [].

Definition inSection (n : string) (answers : list (Outcome Selected))
  : Machine World :=
  {| comp := setActiveSection_cell n loadedComponent;
     world := linuxWorld okStore answers;
     trace := [] |}.
End Scenarios.

(* ================================================================= *)
(** ** Traces and the guard *)

Lemma saves_of_app (t1 t2 : list Effect) :
  saves_of (t1 ++ t2) = saves_of t1 ++ saves_of t2.
Proof. unfold saves_of. apply flat_map_app. Qed.

Lemma toasts_of_app (t1 t2 : list Effect) :
  toasts_of (t1 ++ t2) = toasts_of t1 ++ toasts_of t2.
Proof. unfold toasts_of. apply flat_map_app. Qed.

(** The guard of line 56 passes exactly on a non-empty string with the
    settings loaded. *)
Lemma path_guard_true (sel : Selected) (cur : option SettingsRecord) :
  path_guard sel cur = true <->
  exists p s, sel = SelPath p /\ p <> "" /\ cur = Some s.
Proof.
  unfold path_guard. split.
  - intros G. apply andb_prop in G. destruct G as [G Hs].
    apply andb_prop in G. destruct G as [Ht Hty].
    destruct sel as [|p|ps]; simpl in Ht, Hty; try discriminate.
    destruct cur as [s|]; simpl in Hs; try discriminate.
    exists p, s. split; [reflexivity | split; [ | reflexivity ] ].
    apply negb_true_iff in Ht. now apply String.eqb_neq.
  - intros (p & s & -> & Hp & ->). simpl.
    apply String.eqb_neq in Hp. now rewrite Hp.
Qed.

Lemma path_guard_path (p : string) (s : SettingsRecord) :
  p <> "" -> path_guard (SelPath p) (Some s) = true.
Proof. intros Hp. apply path_guard_true. now exists p, s. Qed.

(** The picker handing back the empty string is treated like a cancel. *)
Lemma path_guard_empty (cur : option SettingsRecord) :
  path_guard (SelPath "") cur = false.
Proof. reflexivity. Qed.

Lemma path_guard_unloaded (sel : Selected) : path_guard sel None = false.
Proof. unfold path_guard. simpl. now rewrite andb_false_r. Qed.

Lemma path_guard_not_string (sel : Selected) (cur : option SettingsRecord) :
  js_typeof sel <> "string" -> path_guard sel cur = false.
Proof.
  intros Ht. unfold path_guard. apply String.eqb_neq in Ht. rewrite Ht.
  now rewrite andb_false_r.
Qed.

(* ================================================================= *)
(** ** The collection-path handler *)

Section CollectionPath.
Context {W : Type} {host : Host W}.

(** What the handler does once the guard has passed, whatever the save
    answers. *)
Lemma change_path_runs (m : Machine W) (s : SettingsRecord) (p : string)
      (w1 : W) :
  settings (comp m) = Some s ->
  dialog_open (world m) = (Resolved (SelPath p), w1) ->
  p <> "" ->
  handleChangeCollectionPath m =
    let updated := spread_collectionPath s p in
    match fst (saveSettings updated w1) with
    | Resolved _ =>
        (Resolved tt,
         {| comp := setSettings_cell (Some updated) (comp m);
            world := snd (saveSettings updated w1);
            trace := ((trace m ++ [CallDialogOpen])
                        ++ [CallSaveSettings updated])
                       ++ [ShowToast updatedToast] |})
    | Rejected e =>
        (Resolved tt,
         {| comp := comp m;
            world := snd (saveSettings updated w1);
            trace := (((trace m ++ [CallDialogOpen])
                         ++ [CallSaveSettings updated])
                        ++ [ConsoleError
                              "Failed to change collection path:" e])
                       ++ [ShowToast errorToastPath] |})
    end.
Proof.
  intros Hs Hd Hp. step_handler. rewrite Hs, Hd. cbn [fst snd].
  rewrite (path_guard_path s Hp). cbn [fst snd comp world trace].
  destruct (saveSettings (spread_collectionPath s p) w1) as [[u|e] w2];
    reflexivity.
Qed.

(** What the handler does when the guard fails. *)
Lemma change_path_skips (m : Machine W) (sel : Selected) (w1 : W) :
  dialog_open (world m) = (Resolved sel, w1) ->
  path_guard sel (settings (comp m)) = false ->
  handleChangeCollectionPath m =
    (Resolved tt,
     {| comp := comp m; world := w1; trace := trace m ++ [CallDialogOpen] |}).
Proof.
  intros Hd Hg. step_handler. rewrite Hd. cbn [fst snd]. rewrite Hg.
  reflexivity.
Qed.

(** C1.  With the settings loaded and the picker returning one directory
    path as a string, the handler calls [saveSettings] once, on the old
    record with only [collectionPath] replaced by the chosen path ([os] and
    [firstStartup] are the old ones); when that save resolves, this record
    is the new in-memory settings and the other cells are untouched. *)
Theorem change_collection_path_replaces_only_path
    (m : Machine W) (s : SettingsRecord) (p : string) (w1 : W) :
  settings (comp m) = Some s ->
  dialog_open (world m) = (Resolved (SelPath p), w1) ->
  p <> "" ->
  os (spread_collectionPath s p) = os s
  /\ firstStartup (spread_collectionPath s p) = firstStartup s
  /\ collectionPath (spread_collectionPath s p) = p
  /\ saves_of (trace (after handleChangeCollectionPath m))
      = saves_of (trace m) ++ [spread_collectionPath s p]
  /\ world (after handleChangeCollectionPath m)
      = snd (saveSettings (spread_collectionPath s p) w1)
  /\ (forall u : unit,
        fst (saveSettings (spread_collectionPath s p) w1) = Resolved u ->
        settings (comp (after handleChangeCollectionPath m))
          = Some (spread_collectionPath s p)
        /\ comp (after handleChangeCollectionPath m)
           = setSettings_cell (Some (spread_collectionPath s p)) (comp m)
        /\ toasts_of (trace (after handleChangeCollectionPath m))
           = toasts_of (trace m) ++ [updatedToast]).
Proof.
  intros Hs Hd Hp. unfold after.
  rewrite (change_path_runs m Hs Hd Hp). cbv zeta.
  do 3 (split; [reflexivity | ]).
  split; [ | split ].
  - destruct (fst (saveSettings (spread_collectionPath s p) w1));
      cbn [snd trace]; rewrite !saves_of_app; cbn; now rewrite ?app_nil_r.
  - destruct (fst (saveSettings (spread_collectionPath s p) w1));
      reflexivity.
  - intros u Hu. rewrite Hu. cbn [snd comp trace].
    split; [reflexivity | split; [reflexivity | ] ].
    rewrite !toasts_of_app. cbn. now rewrite ?app_nil_r.
Qed.

(** C2.  When [saveSettings] throws, the handler settles normally with
    every state cell as it was, after one save call, a console message and
    one error toast. *)
Theorem save_failure_keeps_state
    (m : Machine W) (s : SettingsRecord) (p : string) (w1 w2 : W)
    (e : HostError) :
  settings (comp m) = Some s ->
  dialog_open (world m) = (Resolved (SelPath p), w1) ->
  p <> "" ->
  saveSettings (spread_collectionPath s p) w1 = (Rejected e, w2) ->
  settled handleChangeCollectionPath m = Resolved tt
  /\ comp (after handleChangeCollectionPath m) = comp m
  /\ world (after handleChangeCollectionPath m) = w2
  /\ trace (after handleChangeCollectionPath m)
      = trace m ++ [ CallDialogOpen;
                     CallSaveSettings (spread_collectionPath s p);
                     ConsoleError "Failed to change collection path:" e;
                     ShowToast errorToastPath ]
  /\ saves_of (trace (after handleChangeCollectionPath m))
      = saves_of (trace m) ++ [spread_collectionPath s p]
  /\ toasts_of (trace (after handleChangeCollectionPath m))
      = toasts_of (trace m) ++ [errorToastPath]
  /\ toast_kind errorToastPath = NError.
Proof.
  intros Hs Hd Hp Hsave. unfold after, settled.
  rewrite (change_path_runs m Hs Hd Hp). cbv zeta. rewrite Hsave.
  cbn [fst snd comp world trace].
  repeat split.
  - now rewrite <- !app_assoc.
  - rewrite !saves_of_app. cbn. now rewrite ?app_nil_r.
  - rewrite !toasts_of_app. cbn. now rewrite ?app_nil_r.
Qed.

(** C3.  When the picker resolves to [null], the handler only made the
    picker call: no save, no toast, every state cell as it was, and the
    host left as the picker left it. *)
Theorem cancel_leaves_collection_path (m : Machine W) (w1 : W) :
  dialog_open (world m) = (Resolved SelNull, w1) ->
  settled handleChangeCollectionPath m = Resolved tt
  /\ comp (after handleChangeCollectionPath m) = comp m
  /\ world (after handleChangeCollectionPath m) = w1
  /\ trace (after handleChangeCollectionPath m) = trace m ++ [CallDialogOpen]
  /\ saves_of (trace (after handleChangeCollectionPath m))
      = saves_of (trace m).
Proof.
  intros Hd. unfold after, settled.
  rewrite (change_path_skips m Hd) by reflexivity.
  cbn [fst snd comp world trace]. repeat split.
  rewrite saves_of_app. cbn. now rewrite app_nil_r.
Qed.

(** C8.  When the picker resolves and either the settings are not loaded
    or the value is not a string, the handler saves nothing, changes no
    state cell and shows no toast and logs nothing. *)
Theorem guard_failure_is_silent (m : Machine W) (sel : Selected) (w1 : W) :
  dialog_open (world m) = (Resolved sel, w1) ->
  settings (comp m) = None \/ js_typeof sel <> "string" ->
  settled handleChangeCollectionPath m = Resolved tt
  /\ comp (after handleChangeCollectionPath m) = comp m
  /\ world (after handleChangeCollectionPath m) = w1
  /\ trace (after handleChangeCollectionPath m) = trace m ++ [CallDialogOpen]
  /\ saves_of (trace (after handleChangeCollectionPath m))
      = saves_of (trace m)
  /\ toasts_of (trace (after handleChangeCollectionPath m))
      = toasts_of (trace m).
Proof.
  intros Hd Hcase. unfold after, settled.
  assert (Hg : path_guard sel (settings (comp m)) = false).
  { destruct Hcase as [Hn | Ht].
    - rewrite Hn. apply path_guard_unloaded.
    - now apply path_guard_not_string. }
  rewrite (change_path_skips m Hd Hg).
  cbn [fst snd comp world trace]. repeat split.
  - rewrite saves_of_app. cbn. now rewrite app_nil_r.
  - rewrite toasts_of_app. cbn. now rewrite app_nil_r.
Qed.
End CollectionPath.

(* ================================================================= *)
(** ** The folder-open and theme handlers *)

Section OtherHandlers.
Context {W : Type} {host : Host W}.

Lemma folder_open_runs (m : Machine W) (path : string) :
  handleFolderOpen path m =
    match fst (invoke "open_folder" path (world m)) with
    | Resolved _ =>
        (Resolved tt,
         {| comp := comp m;
            world := snd (invoke "open_folder" path (world m));
            trace := (trace m ++ [CallInvoke "open_folder" path])
                       ++ [ShowToast openedToast] |})
    | Rejected e =>
        (Resolved tt,
         {| comp := comp m;
            world := snd (invoke "open_folder" path (world m));
            trace := ((trace m ++ [CallInvoke "open_folder" path])
                        ++ [ConsoleError "Failed to open folder:" e])
                       ++ [ShowToast errorToastOpen] |})
    end.
Proof.
  step_handler.
  destruct (invoke "open_folder" path (world m)) as [[u|e] w1]; reflexivity.
Qed.

Lemma theme_change_runs (m : Machine W) (value : Theme) :
  handleThemeChange value m =
    (Resolved tt,
     {| comp := setTheme_cell value (comp m);
        world := world m;
        trace := trace m ++ [ShowToast (themeToast value)] |}).
Proof. reflexivity. Qed.

(** C4.  When the host's open-folder call fails, with whatever error, the
    handler settles normally: the failure is logged and shown as one error
    toast, no state cell changes and nothing is saved. *)
Theorem folder_open_failure_is_caught
    (m : Machine W) (path : string) (e : HostError) (w1 : W) :
  invoke "open_folder" path (world m) = (Rejected e, w1) ->
  settled (handleFolderOpen path) m = Resolved tt
  /\ comp (after (handleFolderOpen path) m) = comp m
  /\ world (after (handleFolderOpen path) m) = w1
  /\ trace (after (handleFolderOpen path) m)
      = trace m ++ [ CallInvoke "open_folder" path;
                     ConsoleError "Failed to open folder:" e;
                     ShowToast errorToastOpen ]
  /\ saves_of (trace (after (handleFolderOpen path) m))
      = saves_of (trace m)
  /\ toast_kind errorToastOpen = NError.
Proof.
  intros Hinv. unfold after, settled. rewrite folder_open_runs, Hinv.
  cbn [fst snd comp world trace]. repeat split.
  - now rewrite <- !app_assoc.
  - rewrite !saves_of_app. cbn. now rewrite !app_nil_r.
Qed.

(** C6.  Every argument of the theme handler is one of light, dark and
    system; the handler makes it the active theme and shows one success
    toast naming it. *)
Theorem theme_change_sets_theme (m : Machine W) (value : Theme) :
  (value = light \/ value = dark \/ value = system)
  /\ settled (handleThemeChange value) m = Resolved tt
  /\ theme (comp (after (handleThemeChange value) m)) = value
  /\ toasts_of (trace (after (handleThemeChange value) m))
      = toasts_of (trace m) ++ [themeToast value]
  /\ toast_kind (themeToast value) = NSuccess
  /\ description (themeToast value)
      = ("Theme has been changed to " ++ theme_text value ++ ".")%string.
Proof.
  unfold after, settled. rewrite theme_change_runs.
  cbn [fst snd comp world trace]. split; [ | repeat split ].
  - destruct value; auto.
  - rewrite toasts_of_app. cbn. reflexivity.
Qed.

(** C9.  A theme change calls no host service, so no save; it leaves the
    settings cell and the host as they were, always settles normally and
    the one toast it shows is a success toast. *)
Theorem theme_change_frame (m : Machine W) (value : Theme) :
  settled (handleThemeChange value) m = Resolved tt
  /\ settings (comp (after (handleThemeChange value) m)) = settings (comp m)
  /\ activeSection (comp (after (handleThemeChange value) m))
      = activeSection (comp m)
  /\ appDirectory (comp (after (handleThemeChange value) m))
      = appDirectory (comp m)
  /\ world (after (handleThemeChange value) m) = world m
  /\ saves_of (trace (after (handleThemeChange value) m))
      = saves_of (trace m)
  /\ trace (after (handleThemeChange value) m)
      = trace m ++ [ShowToast (themeToast value)]
  /\ toast_kind (themeToast value) = NSuccess.
Proof.
  unfold after, settled. rewrite theme_change_runs.
  cbn [fst snd comp world trace]. repeat split.
  rewrite saves_of_app. cbn. now rewrite app_nil_r.
Qed.
End OtherHandlers.

(* ================================================================= *)
(** ** The active section *)

Create HintDb keeps.

Section ActiveSection.
Context {W : Type} {host : Host W}.

Lemma keeps_ret {A : Type} (a : A) : keeps_section (W:=W) (ret a).
Proof. intros m. reflexivity. Qed.

Lemma keeps_read {A : Type} (f : Component -> A) : keeps_section (W:=W) (read f).
Proof. intros m. reflexivity. Qed.

Lemma keeps_toast (t : Toast) : keeps_section (W:=W) (toast t).
Proof. intros m. reflexivity. Qed.

Lemma keeps_console_error (msg : string) (e : HostError) :
  keeps_section (W:=W) (console_error msg e).
Proof. intros m. reflexivity. Qed.

Lemma keeps_host_call {A : Type} (l : Effect) (op : W -> Outcome A * W) :
  keeps_section (host_call l op).
Proof. intros m. reflexivity. Qed.

Lemma keeps_update (f : Component -> Component) :
  (forall c, activeSection (f c) = activeSection c) ->
  keeps_section (W:=W) (update f).
Proof. intros Hf m. apply Hf. Qed.

Lemma keeps_bind {A B : Type} (c : M W A) (k : A -> M W B) :
  keeps_section c -> (forall a, keeps_section (k a)) ->
  keeps_section (bind c k).
Proof.
  intros Hc Hk m. unfold bind. specialize (Hc m).
  destruct (c m) as [[a|e] m1]; cbn [snd] in *.
  - now rewrite Hk.
  - exact Hc.
Qed.

Lemma keeps_try_catch {A : Type} (body : M W A) (handler : HostError -> M W A) :
  keeps_section body -> (forall e, keeps_section (handler e)) ->
  keeps_section (try_catch body handler).
Proof.
  intros Hb Hh m. unfold try_catch. specialize (Hb m).
  destruct (body m) as [[a|e] m1]; cbn [snd] in *.
  - exact Hb.
  - now rewrite Hh.
Qed.

#[local] Hint Resolve keeps_ret keeps_read keeps_toast keeps_console_error
  keeps_host_call keeps_update keeps_bind keeps_try_catch : keeps.

Ltac keeps :=
  repeat first
    [ apply keeps_bind; [ | intro ]
    | apply keeps_try_catch; [ | intro ]
    | apply keeps_update; intro; reflexivity
    | solve [ auto with keeps ] ].

Lemma keeps_onMount : keeps_section onMount.
Proof. unfold onMount. keeps. Qed.

Lemma keeps_handleFolderOpen (path : string) :
  keeps_section (handleFolderOpen path).
Proof. unfold handleFolderOpen. keeps. Qed.

Lemma keeps_handleThemeChange (value : Theme) :
  keeps_section (W:=W) (handleThemeChange value).
Proof. unfold handleThemeChange. keeps. Qed.

Lemma keeps_handleChangeCollectionPath :
  keeps_section handleChangeCollectionPath.
Proof.
  unfold handleChangeCollectionPath.
  apply keeps_bind; [ apply keeps_read | intros cur ].
  apply keeps_try_catch; [ | intro; keeps ].
  apply keeps_bind; [ apply keeps_host_call | intros sel ].
  destruct (path_guard sel cur); [ | apply keeps_ret ].
  destruct sel as [|p|ps]; try apply keeps_ret.
  destruct cur as [s|]; [ keeps | apply keeps_ret ].
Qed.

Lemma option_names : map name settingsOptions = sectionNames.
Proof. reflexivity. Qed.

Lemma sidebar_name_listed (i : nat) (opt : SettingsOption) :
  nth_error settingsOptions i = Some opt -> In (name opt) sectionNames.
Proof.
  intros Hn. rewrite <- option_names. apply in_map.
  exact (nth_error_In settingsOptions i Hn).
Qed.

(** One event keeps the active section inside the list. *)
Lemma dispatch_listed (ev : UiEvent) (m : Machine W) :
  In (activeSection (comp m)) sectionNames ->
  In (activeSection (comp (snd (dispatch ev m)))) sectionNames.
Proof.
  intros Hin. destruct ev as [|i|v| | |]; cbn [dispatch].
  - now rewrite keeps_onMount.
  - destruct (nth_error settingsOptions i) as [opt|] eqn:Hn.
    + cbn. exact (sidebar_name_listed i Hn).
    + exact Hin.
  - unfold bind, read. cbn [fst snd].
    destruct (shown (comp m)) as [[| | | |]|];
      first [ exact Hin | now rewrite keeps_handleThemeChange ].
  - unfold bind, read. cbn [fst snd].
    destruct (shown (comp m)) as [[| | | |]|];
      first [ exact Hin | now rewrite keeps_handleChangeCollectionPath ].
  - unfold bind, read. cbn [fst snd].
    destruct (shown (comp m)) as [[| | | |]|];
      first [ exact Hin | now rewrite keeps_handleFolderOpen ].
  - unfold bind, read. cbn [fst snd].
    destruct (shown (comp m)) as [[| | | |]|];
      first [ exact Hin | now rewrite keeps_handleFolderOpen ].
Qed.

Lemma run_events_listed (evs : list UiEvent) (m : Machine W) :
  In (activeSection (comp m)) sectionNames ->
  In (activeSection (comp (run_events evs m))) sectionNames.
Proof.
  revert m. induction evs as [|ev rest IH]; intros m Hin; cbn [run_events].
  - exact Hin.
  - apply IH. now apply dispatch_listed.
Qed.

Lemma listed_renders (c : Component) :
  In (activeSection c) sectionNames -> renderSection c <> None.
Proof.
  unfold sectionNames, renderSection. cbn [In].
  intros [H|[H|[H|[H|[H|[]]]]]]; rewrite <- H; cbn; discriminate.
Qed.

(** C10.  The active section starts as "Themes"; after any sequence of
    user actions it is one of the five names of the sidebar options, and
    [renderSection] does not take its default branch. *)
Theorem active_section_is_listed (t : Theme) (w : W) (evs : list UiEvent) :
  activeSection (comp (initialMachine t w)) = "Themes"
  /\ sectionNames = ["Themes"; "Connections"; "Collections"; "About"; "Test"]
  /\ map name settingsOptions = sectionNames
  /\ In (activeSection (comp (run_events evs (initialMachine t w))))
        sectionNames
  /\ renderSection (comp (run_events evs (initialMachine t w))) <> None.
Proof.
  assert (Hrun : In (activeSection
                       (comp (run_events evs (initialMachine t w))))
                    sectionNames).
  { apply run_events_listed. cbn. now left. }
  repeat split; try reflexivity; try exact Hrun.
  now apply listed_renders.
Qed.
End ActiveSection.

(* ================================================================= *)
(** ** The settings store *)

Section Store.
Import SettingsStore.

Lemma load_leaves_record (env : HostEnv) (st st1 : Store)
      (r : SettingsRecord) :
  load env st = (Resolved r, st1) ->
  available st1 = true /\ persisted st1 = Some r.
Proof.
  unfold load. destruct (available st) eqn:Hav; [ | discriminate ].
  destruct (persisted st) as [r0|] eqn:Hp; intros Heq;
    inversion Heq; subst; cbn; auto.
Qed.

Lemma save_keeps_record (r : SettingsRecord) (st st2 : Store)
      (res : Outcome unit) :
  available st = true -> persisted st = Some r ->
  save r st = (res, st2) ->
  available st2 = true /\ persisted st2 = Some r.
Proof.
  intros Hav Hp. unfold save. rewrite Hav.
  destruct (String.eqb (collectionPath r) ""); intros Heq;
    inversion Heq; subst; cbn; auto.
Qed.

Lemma load_of_record (env : HostEnv) (st : Store) (r : SettingsRecord) :
  available st = true -> persisted st = Some r ->
  load env st = (Resolved r, st).
Proof. intros Hav Hp. unfold load. now rewrite Hav, Hp. Qed.

(** C5.  Whatever is persisted, when a load returns a record, saving that
    record (whether the save succeeds or is refused) and loading again,
    at any later time, returns the same record. *)
Theorem save_load_round_trip
    (env env' : HostEnv) (st st1 st2 : Store) (r : SettingsRecord)
    (res : Outcome unit) :
  load env st = (Resolved r, st1) ->
  save r st1 = (res, st2) ->
  load env' st2 = (Resolved r, st2).
Proof.
  intros Hload Hsave.
  destruct (@load_leaves_record env st st1 r Hload) as [Hav Hp].
  destruct (@save_keeps_record r st1 st2 res Hav Hp Hsave) as [Hav2 Hp2].
  now apply load_of_record.
Qed.
End Store.

(* ================================================================= *)
(** ** The handlers on the fake host *)

Import SettingsStore FakeHost.

(** The design's example: on the Linux profile the user picks
    [/home/u/Documents/col2]; the in-memory record and the persisted one
    are the old record with that path. *)
Lemma change_collection_path_example :
  settings (comp picked) = Some linuxRecord
  /\ dialog_open (world picked)
     = (Resolved (SelPath col2), linuxWorld okStore [])
  /\ col2 <> ""
  /\ settings (comp (after handleChangeCollectionPath picked))
     = Some {| os := "Linux";
               firstStartup := "2024-01-01T00:00:00Z";
               collectionPath := "/home/u/Documents/col2" |}
  /\ persisted (store (world (after handleChangeCollectionPath picked)))
     = Some {| os := "Linux";
               firstStartup := "2024-01-01T00:00:00Z";
               collectionPath := "/home/u/Documents/col2" |}.
Proof.
  assert (Hne : col2 <> "") by discriminate.
  destruct (@change_collection_path_replaces_only_path World fake picked
              linuxRecord col2 (linuxWorld okStore [])
              eq_refl eq_refl Hne)
    as (_ & _ & _ & _ & Hworld & Hok).
  destruct (Hok tt eq_refl) as (Hset & _ & _).
  split; [reflexivity | ]. split; [reflexivity | ]. split; [exact Hne | ].
  split; [exact Hset | ].
  rewrite Hworld. reflexivity.
Defined.

(** With the store down the save is refused: the record in memory is
    still the old one and the user sees one error toast. *)
Lemma save_failure_example :
  settings (comp unsaved) = Some linuxRecord
  /\ dialog_open (world unsaved)
     = (Resolved (SelPath col2), linuxWorld downStore [])
  /\ col2 <> ""
  /\ saveSettings (spread_collectionPath linuxRecord col2)
                  (linuxWorld downStore [])
     = (Rejected StorageUnavailable, linuxWorld downStore [])
  /\ comp (after handleChangeCollectionPath unsaved) = loadedComponent
  /\ toasts_of (trace (after handleChangeCollectionPath unsaved))
     = [errorToastPath].
Proof.
  assert (Hne : col2 <> "") by discriminate.
  destruct (@save_failure_keeps_state World fake unsaved linuxRecord col2
              (linuxWorld downStore []) (linuxWorld downStore [])
              StorageUnavailable eq_refl eq_refl Hne eq_refl)
    as (_ & Hcomp & _ & _ & _ & Htoasts & _).
  split; [reflexivity | ]. split; [reflexivity | ]. split; [exact Hne | ].
  split; [reflexivity | ]. split; [exact Hcomp | exact Htoasts].
Defined.

(** The user cancels the picker: nothing is saved and the store holds what
    it held. *)
Lemma cancel_example :
  dialog_open (world cancelled) = (Resolved SelNull, linuxWorld okStore [])
  /\ comp (after handleChangeCollectionPath cancelled) = loadedComponent
  /\ saves_of (trace (after handleChangeCollectionPath cancelled)) = []
  /\ persisted (store (world (after handleChangeCollectionPath cancelled)))
     = Some linuxRecord.
Proof.
  destruct (@cancel_leaves_collection_path World fake cancelled
              (linuxWorld okStore []) eq_refl)
    as (_ & Hcomp & Hworld & _ & Hsaves).
  split; [reflexivity | ]. split; [exact Hcomp | ]. split; [exact Hsaves | ].
  rewrite Hworld. reflexivity.
Defined.

(** Opening a folder that was deleted: [PathNotFound] is caught, the
    component is as it was and the user sees one error toast. *)
Lemma folder_open_failure_example :
  invoke "open_folder" "/home/u/deleted" (world idle)
    = (Rejected PathNotFound, linuxWorld okStore [])
  /\ settled (handleFolderOpen "/home/u/deleted") idle = Resolved tt
  /\ comp (after (handleFolderOpen "/home/u/deleted") idle) = loadedComponent
  /\ trace (after (handleFolderOpen "/home/u/deleted") idle)
     = [ CallInvoke "open_folder" "/home/u/deleted";
         ConsoleError "Failed to open folder:" PathNotFound;
         ShowToast errorToastOpen ].
Proof.
  destruct (@folder_open_failure_is_caught World fake idle
              "/home/u/deleted" PathNotFound (linuxWorld okStore [])
              eq_refl)
    as (Hsettled & Hcomp & _ & Htrace & _).
  split; [reflexivity | ]. split; [exact Hsettled | ].
  split; [exact Hcomp | exact Htrace].
Defined.

(** The picker hands back an array, or a path before the settings are
    loaded: no save, no toast, the same state. *)
Lemma guard_failure_example :
  (dialog_open (world several)
     = (Resolved (SelPaths ["/tmp/a"; "/tmp/b"]), linuxWorld okStore [])
   /\ js_typeof (SelPaths ["/tmp/a"; "/tmp/b"]) <> "string"
   /\ comp (after handleChangeCollectionPath several) = loadedComponent
   /\ trace (after handleChangeCollectionPath several) = [CallDialogOpen])
  /\ (dialog_open (world unloaded)
        = (Resolved (SelPath col2), linuxWorld okStore [])
      /\ settings (comp unloaded) = None
      /\ comp (after handleChangeCollectionPath unloaded)
         = initialComponent system
      /\ trace (after handleChangeCollectionPath unloaded)
         = [CallDialogOpen]).
Proof.
  assert (Hty : js_typeof (SelPaths ["/tmp/a"; "/tmp/b"]) <> "string")
    by discriminate.
  destruct (@guard_failure_is_silent World fake several
              (SelPaths ["/tmp/a"; "/tmp/b"]) (linuxWorld okStore [])
              eq_refl (or_intror Hty))
    as (_ & Hcomp1 & _ & Htrace1 & _).
  destruct (@guard_failure_is_silent World fake unloaded
              (SelPath col2) (linuxWorld okStore [])
              eq_refl (or_introl eq_refl))
    as (_ & Hcomp2 & _ & Htrace2 & _).
  split.
  - split; [reflexivity | ]. split; [exact Hty | ].
    split; [exact Hcomp1 | exact Htrace1].
  - split; [reflexivity | ]. split; [reflexivity | ].
    split; [exact Hcomp2 | exact Htrace2].
Defined.

(** A fresh profile: the first load creates the record, saving it back and
    loading a year later returns that record, not a newly created one. *)
(** With the settings not loaded, a picker that rejects instead of returning
    still reaches the catch block: the handler shows the error toast, so
    "settings is null" alone does not make the handler silent. *)
Lemma unloaded_settings_alone_not_silent :
  ~ (forall m : Machine World,
       settings (comp m) = None ->
       toasts_of (trace (after handleChangeCollectionPath m))
       = toasts_of (trace m)).
Proof.
  intros Hsilent.
  specialize (Hsilent Scenarios.unloadedPickerBroken eq_refl).
  vm_compute in Hsilent. discriminate Hsilent.
Qed.

Lemma round_trip_example :
  load linuxEnv freshStore = (Resolved linuxRecord, okStore)
  /\ save linuxRecord okStore = (Resolved tt, okStore)
  /\ load laterEnv okStore = (Resolved linuxRecord, okStore).
Proof.
  split; [reflexivity | ]. split; [reflexivity | ].
  exact (@save_load_round_trip linuxEnv laterEnv freshStore okStore okStore
           linuxRecord (Resolved tt) eq_refl eq_refl).
Defined.

(* ================================================================= *)
(** ** The mount effect *)

Section MountEffect.
Context {W : Type} {host : Host W}.

Lemma mount_runs (m : Machine W) :
  onMount m =
    match loadSettings (world m) with
    | (Resolved loaded, w1) =>
        match appDataDir w1 with
        | (Resolved dir, w2) =>
            (Resolved tt,
             {| comp := setAppDirectory_cell dir
                          (setSettings_cell loaded (comp m));
                world := w2;
                trace := (trace m ++ [CallLoadSettings]) ++ [CallAppDataDir] |})
        | (Rejected e, w2) =>
            (Rejected e,
             {| comp := setSettings_cell loaded (comp m);
                world := w2;
                trace := (trace m ++ [CallLoadSettings]) ++ [CallAppDataDir] |})
        end
    | (Rejected e, w1) =>
        (Rejected e,
         {| comp := comp m;
            world := w1;
            trace := trace m ++ [CallLoadSettings] |})
    end.
Proof.
  step_handler.
  destruct (loadSettings (world m)) as [[loaded|e] w1];
    cbn [fst snd comp world trace]; [ | reflexivity ].
  destruct (appDataDir w1) as [[dir|e] w2]; reflexivity.
Qed.

(** X1.  When both [loadSettings] and [appDataDir] resolve, the mount effect
    stores exactly what they returned in the settings and app-directory
    cells, leaves the theme and the active section alone, and shows no toast
    and saves nothing. *)
Theorem mount_loads_settings_and_directory
    (m : Machine W) (loaded : option SettingsRecord) (dir : string)
    (w1 w2 : W) :
  loadSettings (world m) = (Resolved loaded, w1) ->
  appDataDir w1 = (Resolved dir, w2) ->
  settled onMount m = Resolved tt
  /\ settings (comp (after onMount m)) = loaded
  /\ appDirectory (comp (after onMount m)) = dir
  /\ theme (comp (after onMount m)) = theme (comp m)
  /\ activeSection (comp (after onMount m)) = activeSection (comp m)
  /\ world (after onMount m) = w2
  /\ trace (after onMount m) = trace m ++ [CallLoadSettings; CallAppDataDir].
Proof.
  intros Hl Hd. unfold settled, after. rewrite mount_runs, Hl, Hd.
  cbn [fst snd comp world trace]. repeat split.
  now rewrite <- app_assoc.
Qed.

(** X2.  When [loadSettings] rejects, nothing catches it: the mount effect
    rejects with the same error, no state cell changes, the data directory
    is never asked for and the user gets no toast. *)
Theorem mount_load_failure_is_not_caught
    (m : Machine W) (e : HostError) (w1 : W) :
  loadSettings (world m) = (Rejected e, w1) ->
  settled onMount m = Rejected e
  /\ comp (after onMount m) = comp m
  /\ world (after onMount m) = w1
  /\ trace (after onMount m) = trace m ++ [CallLoadSettings]
  /\ toasts_of (trace (after onMount m)) = toasts_of (trace m).
Proof.
  intros Hl. unfold settled, after. rewrite mount_runs, Hl.
  cbn [fst snd comp world trace]. repeat split.
  rewrite toasts_of_app. cbn. now rewrite app_nil_r.
Qed.

(** X3.  When the settings load but [appDataDir] rejects, the loaded settings
    are already in place, the app-directory cell keeps its old value, the
    rejection is not caught and no toast is shown. *)
Theorem mount_directory_failure_keeps_loaded_settings
    (m : Machine W) (loaded : option SettingsRecord) (e : HostError)
    (w1 w2 : W) :
  loadSettings (world m) = (Resolved loaded, w1) ->
  appDataDir w1 = (Rejected e, w2) ->
  settled onMount m = Rejected e
  /\ settings (comp (after onMount m)) = loaded
  /\ appDirectory (comp (after onMount m)) = appDirectory (comp m)
  /\ toasts_of (trace (after onMount m)) = toasts_of (trace m).
Proof.
  intros Hl Hd. unfold settled, after. rewrite mount_runs, Hl, Hd.
  cbn [fst snd comp world trace]. repeat split.
  rewrite !toasts_of_app. cbn. now rewrite !app_nil_r.
Qed.
End MountEffect.

(** The first launch on the Linux profile: the record is created and shown. *)
Lemma mount_example :
  loadSettings (world Scenarios.firstLaunch)
    = (Resolved (Some linuxRecord), linuxWorld okStore [])
  /\ appDataDir (linuxWorld okStore [])
     = (Resolved "/home/u/.app", linuxWorld okStore [])
  /\ settings (comp (after onMount Scenarios.firstLaunch)) = Some linuxRecord
  /\ appDirectory (comp (after onMount Scenarios.firstLaunch)) = "/home/u/.app"
  /\ trace (after onMount Scenarios.firstLaunch)
     = [CallLoadSettings; CallAppDataDir].
Proof.
  destruct (@mount_loads_settings_and_directory World fake
              Scenarios.firstLaunch (Some linuxRecord) "/home/u/.app"
              (linuxWorld okStore []) (linuxWorld okStore [])
              eq_refl eq_refl)
    as (_ & Hs & Hd & _ & _ & _ & Ht).
  split; [reflexivity | ]. split; [reflexivity | ]. split; [exact Hs | ].
  split; [exact Hd | exact Ht].
Defined.

(** A launch with the store down: the settings stay null and nothing tells
    the user. *)
Lemma mount_load_failure_example :
  loadSettings (world Scenarios.launchStoreDown)
    = (Rejected StorageUnavailable, linuxWorld downStore [])
  /\ settled onMount Scenarios.launchStoreDown = Rejected StorageUnavailable
  /\ settings (comp (after onMount Scenarios.launchStoreDown)) = None
  /\ toasts_of (trace (after onMount Scenarios.launchStoreDown)) = [].
Proof.
  destruct (@mount_load_failure_is_not_caught World fake
              Scenarios.launchStoreDown StorageUnavailable
              (linuxWorld downStore []) eq_refl)
    as (Hr & Hc & _ & _ & Ht).
  split; [reflexivity | ]. split; [exact Hr | ].
  split; [ now rewrite Hc | exact Ht ].
Defined.

Lemma mount_directory_failure_example :
  @loadSettings World Scenarios.noDataDir (world Scenarios.firstLaunch)
    = (Resolved (Some linuxRecord), linuxWorld okStore [])
  /\ @appDataDir World Scenarios.noDataDir (linuxWorld okStore [])
     = (Rejected (Thrown "no data directory"), linuxWorld okStore [])
  /\ settled (@onMount World Scenarios.noDataDir) Scenarios.firstLaunch
     = Rejected (Thrown "no data directory")
  /\ settings (comp (after (@onMount World Scenarios.noDataDir)
                           Scenarios.firstLaunch)) = Some linuxRecord
  /\ appDirectory (comp (after (@onMount World Scenarios.noDataDir)
                               Scenarios.firstLaunch)) = "".
Proof.
  destruct (@mount_directory_failure_keeps_loaded_settings World
              Scenarios.noDataDir Scenarios.firstLaunch (Some linuxRecord)
              (Thrown "no data directory")
              (linuxWorld okStore []) (linuxWorld okStore [])
              eq_refl eq_refl)
    as (Hr & Hs & Hd & _).
  split; [reflexivity | ]. split; [reflexivity | ]. split; [exact Hr | ].
  split; [exact Hs | exact Hd].
Defined.

(* ================================================================= *)
(** ** The collection-path handler, every case *)

Section CollectionPathCases.
Context {W : Type} {host : Host W}.

(** The handler as one case analysis on what the picker and the save
    answer. *)
Lemma change_path_eq (m : Machine W) :
  handleChangeCollectionPath m =
    match dialog_open (world m) with
    | (Resolved sel, w1) =>
        if path_guard sel (settings (comp m)) then
          match sel, settings (comp m) with
          | SelPath p, Some s =>
              match saveSettings (spread_collectionPath s p) w1 with
              | (Resolved _, w2) =>
                  (Resolved tt,
                   {| comp := setSettings_cell
                                (Some (spread_collectionPath s p)) (comp m);
                      world := w2;
                      trace := trace m
                                 ++ [ CallDialogOpen;
                                      CallSaveSettings
                                        (spread_collectionPath s p);
                                      ShowToast updatedToast ] |})
              | (Rejected e, w2) =>
                  (Resolved tt,
                   {| comp := comp m;
                      world := w2;
                      trace := trace m
                                 ++ [ CallDialogOpen;
                                      CallSaveSettings
                                        (spread_collectionPath s p);
                                      ConsoleError
                                        "Failed to change collection path:" e;
                                      ShowToast errorToastPath ] |})
              end
          | _, _ =>
              (Resolved tt,
               {| comp := comp m; world := w1;
                  trace := trace m ++ [CallDialogOpen] |})
          end
        else
          (Resolved tt,
           {| comp := comp m; world := w1;
              trace := trace m ++ [CallDialogOpen] |})
    | (Rejected e, w1) =>
        (Resolved tt,
         {| comp := comp m;
            world := w1;
            trace := trace m
                       ++ [ CallDialogOpen;
                            ConsoleError "Failed to change collection path:" e;
                            ShowToast errorToastPath ] |})
    end.
Proof.
  step_handler.
  destruct (dialog_open (world m)) as [[sel|e] w1];
    cbn [fst snd comp world trace].
  - destruct (path_guard sel (settings (comp m))); [ | reflexivity ].
    destruct sel as [|p|ps]; try reflexivity.
    destruct (settings (comp m)) as [s|]; [ | reflexivity ].
    cbn [fst snd comp world trace].
    destruct (saveSettings (spread_collectionPath s p) w1) as [[u|e] w2];
      cbn [fst snd comp world trace]; now rewrite <- !app_assoc.
  - now rewrite <- !app_assoc.
Qed.

(** X4.  When the directory picker itself rejects, the handler catches it:
    it settles normally, logs the error, shows the one error toast, saves
    nothing and changes no state cell. *)
Theorem picker_failure_is_caught (m : Machine W) (e : HostError) (w1 : W) :
  dialog_open (world m) = (Rejected e, w1) ->
  settled handleChangeCollectionPath m = Resolved tt
  /\ comp (after handleChangeCollectionPath m) = comp m
  /\ world (after handleChangeCollectionPath m) = w1
  /\ trace (after handleChangeCollectionPath m)
     = trace m ++ [ CallDialogOpen;
                    ConsoleError "Failed to change collection path:" e;
                    ShowToast errorToastPath ]
  /\ saves_of (trace (after handleChangeCollectionPath m))
     = saves_of (trace m).
Proof.
  intros Hd. unfold settled, after. rewrite change_path_eq, Hd.
  cbn [fst snd comp world trace]. repeat split.
  rewrite saves_of_app. cbn. now rewrite app_nil_r.
Qed.

(** X5.  The empty string from the picker is handled like a cancel, also
    with the settings loaded: no save, no toast, no state change. *)
Theorem empty_path_is_ignored (m : Machine W) (w1 : W) :
  dialog_open (world m) = (Resolved (SelPath ""), w1) ->
  settled handleChangeCollectionPath m = Resolved tt
  /\ comp (after handleChangeCollectionPath m) = comp m
  /\ world (after handleChangeCollectionPath m) = w1
  /\ trace (after handleChangeCollectionPath m) = trace m ++ [CallDialogOpen].
Proof.
  intros Hd. unfold settled, after. rewrite change_path_eq, Hd.
  rewrite path_guard_empty. cbn [fst snd comp world trace]. repeat split.
Qed.

(** X6.  The handler changes a state cell only after a save that resolved:
    whenever the component differs afterwards, the settings were loaded, the
    picker returned a non-empty path, [saveSettings] resolved on the updated
    record, and the only change is that record in the settings cell. *)
Theorem state_changes_only_after_save (m : Machine W) :
  comp (after handleChangeCollectionPath m) <> comp m ->
  exists (s : SettingsRecord) (p : string) (w1 : W) (u : unit),
    settings (comp m) = Some s
    /\ dialog_open (world m) = (Resolved (SelPath p), w1)
    /\ p <> ""
    /\ fst (saveSettings (spread_collectionPath s p) w1) = Resolved u
    /\ comp (after handleChangeCollectionPath m)
       = setSettings_cell (Some (spread_collectionPath s p)) (comp m).
Proof.
  unfold after. rewrite change_path_eq.
  destruct (dialog_open (world m)) as [[sel|e] w1];
    [ | intros Hne; now contradiction Hne ].
  destruct (path_guard sel (settings (comp m))) eqn:Hg;
    [ | intros Hne; now contradiction Hne ].
  apply path_guard_true in Hg. destruct Hg as (p & s & -> & Hp & Hs).
  rewrite Hs.
  destruct (saveSettings (spread_collectionPath s p) w1) as [[u|e] w2] eqn:Hsv;
    cbn [fst snd comp]; intros Hne; [ | now contradiction Hne ].
  exists s, p, w1, u. rewrite Hsv. repeat split; assumption.
Qed.

(** X7.  Whatever the picker and the store do, the handler settles normally
    and makes at most one save call and shows at most one toast; it shows no
    toast exactly when the picker resolved and no save was attempted. *)
Theorem change_path_always_settles (m : Machine W) :
  settled handleChangeCollectionPath m = Resolved tt
  /\ exists (saved : list SettingsRecord) (shownToasts : list Toast),
       saves_of (trace (after handleChangeCollectionPath m))
         = saves_of (trace m) ++ saved
       /\ toasts_of (trace (after handleChangeCollectionPath m))
          = toasts_of (trace m) ++ shownToasts
       /\ length saved <= 1
       /\ length shownToasts <= 1
       /\ (shownToasts = [] <->
           saved = []
           /\ exists sel w1, dialog_open (world m) = (Resolved sel, w1)).
Proof.
  unfold settled, after. rewrite change_path_eq.
  destruct (dialog_open (world m)) as [[sel|e] w1].
  - destruct (path_guard sel (settings (comp m))) eqn:Hg.
    + apply path_guard_true in Hg. destruct Hg as (p & s & -> & Hp & Hs).
      rewrite Hs.
      destruct (saveSettings (spread_collectionPath s p) w1) as [[u|e] w2];
        cbn [fst snd trace]; (split; [reflexivity | ]).
      * exists [spread_collectionPath s p], [updatedToast].
        rewrite saves_of_app, toasts_of_app. cbn.
        do 4 (split; [auto | ]).
        split; [ discriminate | intros [Hnil _]; discriminate ].
      * exists [spread_collectionPath s p], [errorToastPath].
        rewrite saves_of_app, toasts_of_app. cbn.
        do 4 (split; [auto | ]).
        split; [ discriminate | intros [Hnil _]; discriminate ].
    + cbn [fst snd trace]. split; [reflexivity | ].
      exists [], []. rewrite saves_of_app, toasts_of_app. cbn.
      do 4 (split; [auto | ]).
      split; [ | reflexivity ]. intros _. split; [reflexivity | ].
      now exists sel, w1.
  - cbn [fst snd trace]. split; [reflexivity | ].
    exists [], [errorToastPath]. rewrite saves_of_app, toasts_of_app. cbn.
    do 4 (split; [auto | ]).
    split; [ discriminate | intros [_ (sel & w2 & Habs)]; discriminate ].
Qed.
End CollectionPathCases.

Lemma picker_failure_example :
  dialog_open (world Scenarios.pickerBroken)
    = (Rejected (Thrown "dialog unavailable"), linuxWorld okStore [])
  /\ settled handleChangeCollectionPath Scenarios.pickerBroken = Resolved tt
  /\ comp (after handleChangeCollectionPath Scenarios.pickerBroken)
     = loadedComponent
  /\ trace (after handleChangeCollectionPath Scenarios.pickerBroken)
     = [ CallDialogOpen;
         ConsoleError "Failed to change collection path:"
                      (Thrown "dialog unavailable");
         ShowToast errorToastPath ].
Proof.
  destruct (@picker_failure_is_caught World fake Scenarios.pickerBroken
              (Thrown "dialog unavailable") (linuxWorld okStore []) eq_refl)
    as (Hr & Hc & _ & Ht & _).
  split; [reflexivity | ]. split; [exact Hr | ].
  split; [exact Hc | exact Ht].
Defined.

Lemma empty_path_example :
  dialog_open (world Scenarios.pickedNothing)
    = (Resolved (SelPath ""), linuxWorld okStore [])
  /\ comp (after handleChangeCollectionPath Scenarios.pickedNothing)
     = loadedComponent
  /\ trace (after handleChangeCollectionPath Scenarios.pickedNothing)
     = [CallDialogOpen].
Proof.
  destruct (@empty_path_is_ignored World fake Scenarios.pickedNothing
              (linuxWorld okStore []) eq_refl)
    as (_ & Hc & _ & Ht).
  split; [reflexivity | ]. split; [exact Hc | exact Ht].
Defined.

Lemma state_change_example :
  comp (after handleChangeCollectionPath picked) <> comp picked
  /\ exists (s : SettingsRecord) (p : string) (w1 : World) (u : unit),
       settings (comp picked) = Some s
       /\ dialog_open (world picked) = (Resolved (SelPath p), w1)
       /\ p <> ""
       /\ fst (saveSettings (spread_collectionPath s p) w1) = Resolved u
       /\ comp (after handleChangeCollectionPath picked)
          = setSettings_cell (Some (spread_collectionPath s p)) (comp picked).
Proof.
  assert (Hne : comp (after handleChangeCollectionPath picked) <> comp picked).
  { intros Heq. apply (f_equal settings) in Heq. vm_compute in Heq.
    discriminate Heq. }
  split; [exact Hne | ].
  exact (@state_changes_only_after_save World fake picked Hne).
Defined.

(* ================================================================= *)
(** ** The folder-open handler, every case *)

Section FolderOpenCases.
Context {W : Type} {host : Host W}.

(** X8.  Whatever the host answers, [handleFolderOpen] settles normally,
    changes no state cell, saves nothing, asks the host once to run
    [open_folder] on the given path, and shows exactly one toast, which is
    the success toast exactly when that call resolved. *)
Theorem folder_open_always_settles (m : Machine W) (path : string) :
  settled (handleFolderOpen path) m = Resolved tt
  /\ comp (after (handleFolderOpen path) m) = comp m
  /\ world (after (handleFolderOpen path) m)
     = snd (invoke "open_folder" path (world m))
  /\ saves_of (trace (after (handleFolderOpen path) m)) = saves_of (trace m)
  /\ exists (rest : list Effect) (t : Toast),
       trace (after (handleFolderOpen path) m)
         = trace m ++ CallInvoke "open_folder" path :: rest
       /\ toasts_of rest = [t]
       /\ (t = openedToast \/ t = errorToastOpen)
       /\ (toast_kind t = NSuccess <->
           exists u, fst (invoke "open_folder" path (world m)) = Resolved u).
Proof.
  unfold settled, after. rewrite folder_open_runs.
  destruct (invoke "open_folder" path (world m)) as [[u|e] w1];
    cbn [fst snd comp world trace].
  - do 3 (split; [reflexivity | ]). split.
    + rewrite !saves_of_app. cbn. now rewrite !app_nil_r.
    + exists [ShowToast openedToast], openedToast. rewrite <- app_assoc.
      do 2 (split; [reflexivity | ]). split; [now left | ].
      split; [ intros _; now exists u | reflexivity ].
  - do 3 (split; [reflexivity | ]). split.
    + rewrite !saves_of_app. cbn. now rewrite !app_nil_r.
    + exists [ConsoleError "Failed to open folder:" e; ShowToast errorToastOpen],
        errorToastOpen. rewrite <- !app_assoc.
      do 2 (split; [reflexivity | ]). split; [now right | ].
      split; [ discriminate | intros [u Hu]; discriminate ].
Qed.
End FolderOpenCases.

(* ================================================================= *)
(** ** What is rendered, and which widget runs which handler *)

Section Rendering.
Context {W : Type} {host : Host W}.

Ltac on_section c n :=
  destruct (String.eqb_spec (activeSection c) n) as [?Hsec|?Hsec];
  [ match goal with H : activeSection c = n |- _ => rewrite ?H end | ].

Ltac section_cases c :=
  unfold shown, renderSection;
  on_section c "Themes";
  [ | on_section c "Connections";
      [ | on_section c "Collections";
          [ | on_section c "About"; [ | on_section c "Test" ] ] ] ].

(** X9.  [renderSection] returns null exactly when the active section is
    none of the five names; for each of the five it renders a section whose
    title is that name. *)
Theorem renderSection_null_iff_unlisted (c : Component) :
  (renderSection c = None <-> ~ In (activeSection c) sectionNames)
  /\ (In (activeSection c) sectionNames ->
      option_map sec_title (renderSection c) = Some (activeSection c)).
Proof.
  unfold sectionNames. cbn [In].
  section_cases c;
    try (split;
         [ split; [ discriminate | intros Hno; exfalso; apply Hno; auto 10 ]
         | reflexivity ]).
  intuition congruence.
Qed.

Lemma dispatch_choose_folder (m : Machine W) :
  dispatch ClickChooseFolder m =
    if String.eqb (activeSection (comp m)) "Collections"
    then handleChangeCollectionPath m
    else (Resolved tt, m).
Proof.
  cbn [dispatch]. unfold bind, read, ret. cbn [fst snd].
  section_cases (comp m); try reflexivity.
  destruct (settings (comp m)); reflexivity.
Qed.

Lemma dispatch_pick_theme (v : Theme) (m : Machine W) :
  dispatch (PickTheme v) m =
    if String.eqb (activeSection (comp m)) "Themes"
    then handleThemeChange v m
    else (Resolved tt, m).
Proof.
  cbn [dispatch]. unfold bind, read, ret. cbn [fst snd].
  section_cases (comp m); try reflexivity.
  destruct (settings (comp m)); reflexivity.
Qed.

Lemma dispatch_open_collection (m : Machine W) :
  dispatch ClickOpenCollectionDir m =
    if String.eqb (activeSection (comp m)) "About" then
      match settings (comp m) with
      | Some s => handleFolderOpen (collectionPath s) m
      | None => (Resolved tt, m)
      end
    else (Resolved tt, m).
Proof.
  cbn [dispatch]. unfold bind, read, ret. cbn [fst snd].
  section_cases (comp m); try reflexivity;
    destruct (settings (comp m)); reflexivity.
Qed.

Lemma dispatch_open_app_dir (m : Machine W) :
  dispatch ClickOpenAppDir m =
    if String.eqb (activeSection (comp m)) "About" then
      match settings (comp m) with
      | Some _ => handleFolderOpen (appDirectory (comp m)) m
      | None => (Resolved tt, m)
      end
    else (Resolved tt, m).
Proof.
  cbn [dispatch]. unfold bind, read, ret. cbn [fst snd].
  section_cases (comp m); try reflexivity;
    destruct (settings (comp m)); reflexivity.
Qed.
End Rendering.

(* ================================================================= *)
(** ** Every user action *)

Section UserActions.
Context {W : Type} {host : Host W}.

Ltac delta_side :=
  repeat match goal with
  | |- _ /\ _ => split
  | |- _ <= _ => cbn; lia
  | |- Forall _ [] => constructor
  | |- Forall _ (_ :: _) => constructor
  | |- [] <> [] -> _ => let H := fresh in intros H; now contradiction H
  | |- _ :: _ <> [] -> _ => intros _
  | |- forall i : nat, _ <> _ => intros; discriminate
  | |- _ <> _ => first [ discriminate | congruence ]
  | |- _ = _ => first [ reflexivity | assumption ]
  end.

(** What one user action appends to the trace. *)
Lemma dispatch_delta (ev : UiEvent) (m : Machine W) :
  exists d : list Effect,
    trace (snd (dispatch ev m)) = trace m ++ d
    /\ length (toasts_of d) <= 1
    /\ length (saves_of d) <= 1
    /\ Forall (fun r => collectionPath r <> "") (saves_of d)
    /\ (saves_of d <> [] ->
        ev = ClickChooseFolder
        /\ activeSection (comp m) = "Collections"
        /\ settings (comp m) <> None)
    /\ (toasts_of d <> [] -> ev <> Mount /\ forall i, ev <> ClickSidebar i).
Proof.
  destruct ev as [|i|v| | |].
  - cbn [dispatch]. rewrite mount_runs.
    destruct (loadSettings (world m)) as [[loaded|e] w1].
    + destruct (appDataDir w1) as [[dir|e] w2]; cbn [snd trace];
        exists [CallLoadSettings; CallAppDataDir]; rewrite <- app_assoc;
        cbn; delta_side.
    + cbn [snd trace]. exists [CallLoadSettings]. cbn. delta_side.
  - cbn [dispatch]. destruct (nth_error settingsOptions i) as [opt|];
      exists []; cbn; rewrite app_nil_r; delta_side.
  - rewrite dispatch_pick_theme.
    destruct (String.eqb (activeSection (comp m)) "Themes").
    + rewrite theme_change_runs. cbn [snd trace].
      exists [ShowToast (themeToast v)]. cbn. delta_side.
    + exists []. cbn. rewrite app_nil_r. delta_side.
  - rewrite dispatch_choose_folder.
    destruct (String.eqb_spec (activeSection (comp m)) "Collections")
      as [Hsec|Hsec];
      [ | exists []; cbn; rewrite app_nil_r; delta_side ].
    rewrite change_path_eq.
    destruct (dialog_open (world m)) as [[sel|e] w1].
    + destruct (path_guard sel (settings (comp m))) eqn:Hg.
      * apply path_guard_true in Hg. destruct Hg as (p & s & -> & Hp & Hs).
        rewrite Hs.
        destruct (saveSettings (spread_collectionPath s p) w1)
          as [[u|e] w2]; cbn [snd trace];
          eexists; (split; [reflexivity | ]); cbn; delta_side; exact Hp.
      * cbn [snd trace]. eexists; (split; [reflexivity | ]). cbn. delta_side.
    + cbn [snd trace]. eexists; (split; [reflexivity | ]). cbn. delta_side.
  - rewrite dispatch_open_collection.
    destruct (String.eqb (activeSection (comp m)) "About");
      [ | exists []; cbn; rewrite app_nil_r; delta_side ].
    destruct (settings (comp m)) as [s|];
      [ | exists []; cbn; rewrite app_nil_r; delta_side ].
    rewrite folder_open_runs.
    destruct (invoke "open_folder" (collectionPath s) (world m))
      as [[u|e] w1]; cbn [fst snd trace]; rewrite <- !app_assoc;
      eexists; (split; [reflexivity | ]); cbn; delta_side.
  - rewrite dispatch_open_app_dir.
    destruct (String.eqb (activeSection (comp m)) "About");
      [ | exists []; cbn; rewrite app_nil_r; delta_side ].
    destruct (settings (comp m)) as [s|];
      [ | exists []; cbn; rewrite app_nil_r; delta_side ].
    rewrite folder_open_runs.
    destruct (invoke "open_folder" (appDirectory (comp m)) (world m))
      as [[u|e] w1]; cbn [fst snd trace]; rewrite <- !app_assoc;
      eexists; (split; [reflexivity | ]); cbn; delta_side.
Qed.

(** X10.  Only the Choose Folder button saves: if a user action adds a save
    call, the action is a click on Choose Folder, the Collections section is
    the active one and the settings are loaded. *)
Theorem only_choose_folder_saves (ev : UiEvent) (m : Machine W) :
  saves_of (trace (after (dispatch ev) m)) <> saves_of (trace m) ->
  ev = ClickChooseFolder
  /\ activeSection (comp m) = "Collections"
  /\ settings (comp m) <> None.
Proof.
  unfold after. intros Hne.
  destruct (dispatch_delta ev m) as (d & Ht & _ & _ & _ & Hsave & _).
  apply Hsave. intros Hnil. apply Hne.
  rewrite Ht, saves_of_app, Hnil. apply app_nil_r.
Qed.

(** X11.  One user action shows at most one toast; the mount effect and a
    sidebar click show none. *)
Theorem at_most_one_toast_per_action (ev : UiEvent) (m : Machine W) :
  exists shownToasts : list Toast,
    toasts_of (trace (after (dispatch ev) m))
      = toasts_of (trace m) ++ shownToasts
    /\ length shownToasts <= 1
    /\ (ev = Mount \/ (exists i, ev = ClickSidebar i) -> shownToasts = []).
Proof.
  unfold after.
  destruct (dispatch_delta ev m) as (d & Ht & Hlen & _ & _ & _ & Htoast).
  exists (toasts_of d). rewrite Ht, toasts_of_app.
  split; [reflexivity | split; [exact Hlen | ] ].
  intros Hev. destruct (toasts_of d) as [|t rest] eqn:Hd; [reflexivity | ].
  exfalso. destruct Htoast as [Hm Hs]; [discriminate | ].
  destruct Hev as [Hev | [i Hev]]; [ now apply Hm | now apply (Hs i) ].
Qed.

(** X12.  From the initial state, after any sequence of user actions, every
    record the component has asked to save has a non-empty collection
    path. *)
Theorem saved_paths_are_never_empty (t : Theme) (w : W) (evs : list UiEvent) :
  Forall (fun r => collectionPath r <> "")
         (saves_of (trace (run_events evs (initialMachine t w)))).
Proof.
  assert (Hgen : forall evs m,
             Forall (fun r => collectionPath r <> "") (saves_of (trace m)) ->
             Forall (fun r => collectionPath r <> "")
                    (saves_of (trace (run_events evs m)))).
  { clear evs. induction evs as [|ev rest IH]; intros m Hm; cbn [run_events].
    - exact Hm.
    - apply IH.
      destruct (dispatch_delta ev m) as (d & Ht & _ & _ & Hall & _).
      rewrite Ht, saves_of_app. apply Forall_app. now split. }
  apply Hgen. cbn. constructor.
Qed.
End UserActions.

(* ================================================================= *)
(** ** Actions and what the panel shows afterwards *)

Section ActionResults.
Context {W : Type} {host : Host W}.

(** X13.  A click on a sidebar button makes that option's name the active
    section, the detail pane then renders the section with that title, and
    nothing else changes: no other state cell, no host call, no toast. *)
Theorem sidebar_click_shows_named_section
    (i : nat) (opt : SettingsOption) (m : Machine W) :
  nth_error settingsOptions i = Some opt ->
  settled (dispatch (ClickSidebar i)) m = Resolved tt
  /\ activeSection (comp (after (dispatch (ClickSidebar i)) m)) = name opt
  /\ option_map sec_title
       (renderSection (comp (after (dispatch (ClickSidebar i)) m)))
     = Some (name opt)
  /\ theme (comp (after (dispatch (ClickSidebar i)) m)) = theme (comp m)
  /\ settings (comp (after (dispatch (ClickSidebar i)) m)) = settings (comp m)
  /\ appDirectory (comp (after (dispatch (ClickSidebar i)) m))
     = appDirectory (comp m)
  /\ world (after (dispatch (ClickSidebar i)) m) = world m
  /\ trace (after (dispatch (ClickSidebar i)) m) = trace m.
Proof.
  intros Hn. unfold settled, after. cbn [dispatch]. rewrite Hn.
  do 5 (destruct i as [|i];
        [ cbn in Hn; inversion Hn; subst opt; cbn; repeat split | ]).
  destruct i; discriminate Hn.
Qed.

(** X14.  No user action rejects: every handler reached from a widget
    settles normally, whatever the host answers.  (Only the mount effect
    can reject.) *)
Theorem user_actions_never_reject (ev : UiEvent) (m : Machine W) :
  ev <> Mount -> settled (dispatch ev) m = Resolved tt.
Proof.
  intros Hev. unfold settled. destruct ev as [|i|v| | |].
  - now contradiction Hev.
  - cbn [dispatch]. destruct (nth_error settingsOptions i); reflexivity.
  - rewrite dispatch_pick_theme.
    destruct (String.eqb (activeSection (comp m)) "Themes"); reflexivity.
  - rewrite dispatch_choose_folder.
    destruct (String.eqb (activeSection (comp m)) "Collections");
      [ | reflexivity ].
    rewrite change_path_eq.
    destruct (dialog_open (world m)) as [[sel|e] w1]; [ | reflexivity ].
    destruct (path_guard sel (settings (comp m))); [ | reflexivity ].
    destruct sel as [|p|ps]; try reflexivity.
    destruct (settings (comp m)) as [s|]; [ | reflexivity ].
    destruct (saveSettings (spread_collectionPath s p) w1) as [[u|e] w2];
      reflexivity.
  - rewrite dispatch_open_collection.
    destruct (String.eqb (activeSection (comp m)) "About"); [ | reflexivity ].
    destruct (settings (comp m)) as [s|]; [ | reflexivity ].
    rewrite folder_open_runs.
    destruct (invoke "open_folder" (collectionPath s) (world m))
      as [[u|e] w1]; reflexivity.
  - rewrite dispatch_open_app_dir.
    destruct (String.eqb (activeSection (comp m)) "About"); [ | reflexivity ].
    destruct (settings (comp m)) as [s|]; [ | reflexivity ].
    rewrite folder_open_runs.
    destruct (invoke "open_folder" (appDirectory (comp m)) (world m))
      as [[u|e] w1]; reflexivity.
Qed.

(** X15.  Once the settings are loaded, no user action unloads them or
    changes [os] or [firstStartup]; every action but Choose Folder leaves the
    whole record as it is. *)
Theorem user_actions_keep_os_and_first_startup
    (ev : UiEvent) (m : Machine W) (s : SettingsRecord) :
  ev <> Mount ->
  settings (comp m) = Some s ->
  exists s' : SettingsRecord,
    settings (comp (after (dispatch ev) m)) = Some s'
    /\ os s' = os s
    /\ firstStartup s' = firstStartup s
    /\ (ev <> ClickChooseFolder -> s' = s).
Proof.
  intros Hev Hs. unfold after. destruct ev as [|i|v| | |].
  - now contradiction Hev.
  - exists s. cbn [dispatch].
    destruct (nth_error settingsOptions i); cbn; auto.
  - exists s. rewrite dispatch_pick_theme.
    destruct (String.eqb (activeSection (comp m)) "Themes"); cbn; auto.
  - rewrite dispatch_choose_folder.
    destruct (String.eqb (activeSection (comp m)) "Collections");
      [ | exists s; cbn; auto ].
    rewrite change_path_eq.
    destruct (dialog_open (world m)) as [[sel|e] w1];
      [ | exists s; cbn; auto ].
    destruct (path_guard sel (settings (comp m))) eqn:Hg;
      [ | exists s; cbn; auto ].
    apply path_guard_true in Hg. destruct Hg as (p & s0 & -> & Hp & Hs0).
    rewrite Hs0.
    destruct (saveSettings (spread_collectionPath s0 p) w1) as [[u|e] w2];
      [ | exists s; cbn; auto ].
    assert (s0 = s) by congruence. subst s0.
    exists (spread_collectionPath s p). cbn.
    repeat split. intros Habs. now contradiction Habs.
  - exists s. rewrite dispatch_open_collection.
    destruct (String.eqb (activeSection (comp m)) "About"); [ | cbn; auto ].
    rewrite Hs, folder_open_runs.
    destruct (invoke "open_folder" (collectionPath s) (world m))
      as [[u|e] w1]; cbn; auto.
  - exists s. rewrite dispatch_open_app_dir.
    destruct (String.eqb (activeSection (comp m)) "About"); [ | cbn; auto ].
    rewrite Hs, folder_open_runs.
    destruct (invoke "open_folder" (appDirectory (comp m)) (world m))
      as [[u|e] w1]; cbn; auto.
Qed.

(** X16.  In the Collections section, after Choose Folder with a non-empty
    path picked, the read-only input shows the picked path when the save
    resolved and still the old path when the save failed. *)
Theorem chosen_path_is_displayed
    (m : Machine W) (s : SettingsRecord) (p : string) (w1 w2 : W)
    (res : Outcome unit) :
  activeSection (comp m) = "Collections" ->
  settings (comp m) = Some s ->
  dialog_open (world m) = (Resolved (SelPath p), w1) ->
  p <> "" ->
  saveSettings (spread_collectionPath s p) w1 = (res, w2) ->
  shown (comp (after (dispatch ClickChooseFolder) m))
  = Some (ChooseFolder match res with
                       | Resolved _ => p
                       | Rejected _ => collectionPath s
                       end).
Proof.
  intros Hsec Hs Hd Hp Hsave. unfold after.
  rewrite dispatch_choose_folder, Hsec. cbn [String.eqb Ascii.eqb Bool.eqb].
  change ("Collections" =? "Collections")%string with true. cbv iota.
  rewrite (change_path_runs m Hs Hd Hp). cbv zeta. rewrite Hsave.
  unfold shown, renderSection.
  destruct res as [u|e]; cbn [fst snd comp]; cbn;
    rewrite ?Hsec, ?Hs; reflexivity.
Qed.

(** X17.  In the Themes section, after a theme is picked the select shows
    that theme, which is one of its three items. *)
Theorem picked_theme_is_shown (v : Theme) (m : Machine W) :
  activeSection (comp m) = "Themes" ->
  theme (comp (after (dispatch (PickTheme v)) m)) = v
  /\ shown (comp (after (dispatch (PickTheme v)) m))
     = Some (ThemeSelect v themeItems)
  /\ In v themeItems.
Proof.
  intros Hsec. unfold after. rewrite dispatch_pick_theme, Hsec.
  change ("Themes" =? "Themes")%string with true. cbv iota.
  rewrite theme_change_runs. cbn [snd comp].
  split; [reflexivity | split ].
  - unfold shown, renderSection. cbn. rewrite Hsec. reflexivity.
  - destruct v; cbn; auto.
Qed.
End ActionResults.

Section Flows.
Context {W : Type} {host : Host W}.

(** X18.  Choosing a folder, going to About and pressing the collection
    directory's open button asks the host to open the folder just chosen:
    after the picker call, the save and the success toast, the next host
    call is [open_folder] on the chosen path, run on the host as the save
    left it. *)
Theorem open_button_opens_the_chosen_path
    (m : Machine W) (s : SettingsRecord) (p : string) (w1 w2 : W) (u : unit) :
  activeSection (comp m) = "Collections" ->
  settings (comp m) = Some s ->
  dialog_open (world m) = (Resolved (SelPath p), w1) ->
  p <> "" ->
  saveSettings (spread_collectionPath s p) w1 = (Resolved u, w2) ->
  exists rest : list Effect,
    trace (run_events [ClickChooseFolder; ClickSidebar 3;
                       ClickOpenCollectionDir] m)
    = trace m ++ [ CallDialogOpen;
                   CallSaveSettings (spread_collectionPath s p);
                   ShowToast updatedToast;
                   CallInvoke "open_folder" p ] ++ rest
    /\ length (toasts_of rest) = 1
    /\ world (run_events [ClickChooseFolder; ClickSidebar 3;
                          ClickOpenCollectionDir] m)
       = snd (invoke "open_folder" p w2).
Proof.
  intros Hsec Hs Hd Hp Hsave. cbn [run_events].
  assert (H1 : snd (dispatch ClickChooseFolder m) =
               {| comp := setSettings_cell (Some (spread_collectionPath s p))
                            (comp m);
                  world := w2;
                  trace := trace m
                             ++ [ CallDialogOpen;
                                  CallSaveSettings (spread_collectionPath s p);
                                  ShowToast updatedToast ] |}).
  { rewrite dispatch_choose_folder, Hsec.
    change ("Collections" =? "Collections")%string with true. cbv iota.
    rewrite (change_path_runs m Hs Hd Hp). cbv zeta. rewrite Hsave.
    cbn [fst snd]. now rewrite <- !app_assoc. }
  assert (H2 : forall m' : Machine W,
             snd (dispatch (ClickSidebar 3) m') =
             {| comp := setActiveSection_cell "About" (comp m');
                world := world m';
                trace := trace m' |}) by reflexivity.
  rewrite H1, H2. cbn [comp world trace].
  rewrite dispatch_open_collection. cbn [comp activeSection settings
    setActiveSection_cell setSettings_cell world trace].
  change ("About" =? "About")%string with true. cbv iota.
  rewrite folder_open_runs. cbn [world collectionPath spread_collectionPath].
  destruct (invoke "open_folder" p w2) as [[u'|e] w3];
    cbn [fst snd trace world]; rewrite <- !app_assoc; cbn [app];
    eexists; (split; [reflexivity | split; reflexivity ]).
Qed.
End Flows.

(* ================================================================= *)
(** ** The worked example, action by action *)

Lemma only_choose_folder_saves_example :
  saves_of (trace (after (dispatch ClickChooseFolder) picked))
    <> saves_of (trace picked)
  /\ activeSection (comp picked) = "Collections"
  /\ settings (comp picked) <> None.
Proof.
  assert (Hne : saves_of (trace (after (dispatch ClickChooseFolder) picked))
                <> saves_of (trace picked)).
  { intros Heq. vm_compute in Heq. discriminate Heq. }
  destruct (@only_choose_folder_saves World fake ClickChooseFolder picked Hne)
    as (_ & Hsec & Hset).
  split; [exact Hne | split; [exact Hsec | exact Hset] ].
Defined.

Lemma sidebar_click_example :
  nth_error settingsOptions 3 = Some (mkOption "About" Library)
  /\ activeSection (comp (after (dispatch (ClickSidebar 3)) picked)) = "About"
  /\ option_map sec_title
       (renderSection (comp (after (dispatch (ClickSidebar 3)) picked)))
     = Some "About"
  /\ trace (after (dispatch (ClickSidebar 3)) picked) = [].
Proof.
  destruct (@sidebar_click_shows_named_section World fake 3
              (mkOption "About" Library) picked eq_refl)
    as (_ & Ha & Ht & _ & _ & _ & _ & Htr).
  split; [reflexivity | split; [exact Ha | split; [exact Ht | exact Htr] ] ].
Defined.

Lemma never_reject_example :
  ClickChooseFolder <> Mount
  /\ settled (dispatch ClickChooseFolder) Scenarios.pickerBroken = Resolved tt.
Proof.
  assert (Hev : ClickChooseFolder <> Mount) by discriminate.
  split; [exact Hev | ].
  exact (@user_actions_never_reject World fake ClickChooseFolder
           Scenarios.pickerBroken Hev).
Defined.

Lemma keep_os_and_first_startup_example :
  ClickChooseFolder <> Mount
  /\ settings (comp picked) = Some linuxRecord
  /\ exists s' : SettingsRecord,
       settings (comp (after (dispatch ClickChooseFolder) picked)) = Some s'
       /\ os s' = "Linux"
       /\ firstStartup s' = "2024-01-01T00:00:00Z".
Proof.
  assert (Hev : ClickChooseFolder <> Mount) by discriminate.
  destruct (@user_actions_keep_os_and_first_startup World fake
              ClickChooseFolder picked linuxRecord Hev eq_refl)
    as (s' & Hs & Hos & Hfs & _).
  split; [exact Hev | split; [reflexivity | ] ].
  exists s'. split; [exact Hs | split; [exact Hos | exact Hfs] ].
Defined.

Lemma chosen_path_is_displayed_example :
  activeSection (comp picked) = "Collections"
  /\ settings (comp picked) = Some linuxRecord
  /\ dialog_open (world picked)
     = (Resolved (SelPath col2), linuxWorld okStore [])
  /\ col2 <> ""
  /\ fst (saveSettings (spread_collectionPath linuxRecord col2)
                       (linuxWorld okStore [])) = Resolved tt
  /\ shown (comp (after (dispatch ClickChooseFolder) picked))
     = Some (ChooseFolder "/home/u/Documents/col2").
Proof.
  assert (Hne : col2 <> "") by discriminate.
  split; [reflexivity | ]. split; [reflexivity | ]. split; [reflexivity | ].
  split; [exact Hne | ]. split; [reflexivity | ].
  exact (@chosen_path_is_displayed World fake picked linuxRecord col2
           (linuxWorld okStore [])
           Scenarios.savedWorld (Resolved tt) eq_refl eq_refl eq_refl Hne eq_refl).
Defined.

Lemma picked_theme_example :
  activeSection (comp (Scenarios.inSection "Themes" [])) = "Themes"
  /\ theme (comp (Scenarios.inSection "Themes" [])) = system
  /\ shown (comp (after (dispatch (PickTheme light))
                        (Scenarios.inSection "Themes" [])))
     = Some (ThemeSelect light themeItems).
Proof.
  destruct (@picked_theme_is_shown World fake light
              (Scenarios.inSection "Themes" []) eq_refl)
    as (_ & Hshown & _).
  split; [reflexivity | split; [reflexivity | exact Hshown] ].
Defined.

Lemma open_button_example :
  activeSection (comp picked) = "Collections"
  /\ settings (comp picked) = Some linuxRecord
  /\ dialog_open (world picked)
     = (Resolved (SelPath col2), linuxWorld okStore [])
  /\ col2 <> ""
  /\ exists rest : list Effect,
       trace (run_events [ClickChooseFolder; ClickSidebar 3;
                          ClickOpenCollectionDir] picked)
       = [ CallDialogOpen;
           CallSaveSettings (spread_collectionPath linuxRecord col2);
           ShowToast updatedToast;
           CallInvoke "open_folder" col2 ] ++ rest.
Proof.
  assert (Hne : col2 <> "") by discriminate.
  destruct (@open_button_opens_the_chosen_path World fake picked linuxRecord
              col2 (linuxWorld okStore [])
              Scenarios.savedWorld tt eq_refl eq_refl eq_refl Hne eq_refl)
    as (rest & Htrace & _).
  split; [reflexivity | ]. split; [reflexivity | ]. split; [reflexivity | ].
  split; [exact Hne | ]. exists rest. exact Htrace.
Defined.
